(** * NotebookContexts: connection contexts and default kernel of a notebook

    A shallow embedding of
    [src/sql/parts/notebook/models/notebookContexts.ts] and the properties
    of its three static methods [getContextsForKernel], [getActiveContexts]
    and [getDefaultKernel].

    The TypeScript is modelled as it is written:
    - an object has an identity.  A connection profile carries the
      reference [self] it was allocated at; [===] on two profiles compares
      these references, never the fields;
    - the getters [DefaultContext] and [LocalContext] run their body on every
      access, so each access allocates a new placeholder profile;
    - an [async] method is a computation over a [World] (the references in
      use and the number of fetches made so far) that is fulfilled with a
      value or rejected with an error;
    - an optional parameter is an [option]; a test [if (x)] on it is a match. *)

From stdpp Require Import base strings gmap list.

(** ** Objects, worlds and asynchronous computations *)

(** Reference of an allocated object. *)
Definition ref := nat.

(** Errors a promise of this module can be rejected with: a property read on
    [undefined], or whatever the connection service rejects with. *)
Inductive JsError : Type :=
| TypeError (message : string)
| ServiceError (reason : string).

Inductive Outcome (A : Type) : Type :=
| Fulfilled (value : A)
| Rejected (error : JsError).
Arguments Fulfilled {A} value.
Arguments Rejected {A} error.

(** [heap]: the references of the objects that exist.  [fetch_calls]: how
    many times [getActiveConnections] has been called on the service. *)
Record World : Type := mkWorld {
  heap : gset ref;
  fetch_calls : nat
}.

Definition Async (A : Type) : Type := World → Outcome A * World.

Definition ret {A} (a : A) : Async A := λ w, (Fulfilled a, w).

Definition throw {A} (e : JsError) : Async A := λ w, (Rejected e, w).

Definition bind {A B} (m : Async A) (k : A → Async B) : Async B :=
  λ w, match m w with
       | (Fulfilled a, w') => k a w'
       | (Rejected e, w') => (Rejected e, w')
       end.

Notation "x <- m ;; k" := (bind m (λ x, k))
  (at level 100, m at next level, right associativity).

(** Values of the [options] bag of a profile ([any] in the interface). *)
Inductive OptionValue : Type :=
| OptString (s : string)
| OptNumber (n : Z)
| OptBoolean (b : bool).

(** [IConnectionProfile], with the fields this file reads.  [options] is
    [None] on an object that has no such property (the placeholder literals
    below are written without it). *)
Record IConnectionProfile : Type := mkProfile {
  self : ref;
  providerName : string;
  id : string;
  serverName : string;
  options : option (gmap string OptionValue)
}.

Global Instance OptionValue_eq_dec : EqDecision OptionValue.
Proof. solve_decision. Defined.

Global Instance IConnectionProfile_eq_dec : EqDecision IConnectionProfile.
Proof. solve_decision. Defined.

(** [a === b] on two profile objects. *)
Definition same_object (a b : IConnectionProfile) : bool :=
  bool_decide (self a = self b).

(** An object literal [{ providerName: p, id: i, serverName: s }]: a new
    object, at a reference no existing object has. *)
Definition newObject (p i s : string) : Async IConnectionProfile :=
  λ w, let r := fresh (heap w) in
       (Fulfilled {| self := r; providerName := p; id := i; serverName := s;
                     options := None |},
        {| heap := {[r]} ∪ heap w; fetch_calls := fetch_calls w |}).

(** [IDefaultConnection]. *)
Record IDefaultConnection : Type := mkContexts {
  defaultConnection : IConnectionProfile;
  otherConnections : list IConnectionProfile
}.

(** [IConnectionManagementService]: what [getActiveConnections()] settles
    to.  The declared result is an array; [Some] of a list is that array and
    [None] is [undefined], which the code tests for. *)
Record IConnectionManagementService : Type := mkService {
  activeConnections : Outcome (option (list IConnectionProfile))
}.

Definition fetched_refs (o : Outcome (option (list IConnectionProfile)))
  : gset ref :=
  match o with
  | Fulfilled (Some l) => list_to_set (self <$> l)
  | _ => ∅
  end.

(** [await connectionService.getActiveConnections()]: one more fetch is
    counted, and the profiles handed over are objects that exist. *)
Definition getActiveConnections (connectionService : IConnectionManagementService)
  : Async (option (list IConnectionProfile)) :=
  λ w, (activeConnections connectionService,
        {| heap := fetched_refs (activeConnections connectionService) ∪ heap w;
           fetch_calls := S (fetch_calls w) |}).

(** ** The [nb] namespace of sqlops: kernels *)

Module nb.

Record IKernelSpec : Type := mkKernelSpec {
  name : string;
  language : option string;
  display_name : option string
}.

(** [IKernelInfo]: the kernel saved in a notebook file; [saved_name] is its
    [name] property. *)
Record IKernelInfo : Type := mkKernelInfo {
  saved_name : string
}.

Record IAllKernels : Type := mkAllKernels {
  defaultKernel : string;
  kernels : list IKernelSpec
}.

(** [IKernel]: a running kernel; [kernel_id] and [kernel_name] are its [id]
    and [name] properties. *)
Record IKernel : Type := mkKernel {
  kernel_id : string;
  kernel_name : string
}.

Record IKernelChangedArgs : Type := mkKernelChangedArgs {
  oldValue : option IKernel;
  newValue : option IKernel
}.

End nb.

Global Instance IKernelSpec_eq_dec : EqDecision nb.IKernelSpec.
Proof. solve_decision. Defined.

(** Modelled from the spec: [notebookConstants.SQL] is declared in
    [modelInterfaces], which is not among the sources; the spec gives the
    fallback kernel as name "SQL", display name "SQL". *)
Definition notebookConstants_SQL : string := "SQL".

Definition MSSQL_PROVIDER : string := "MSSQL".

(** ** The class [NotebookContexts] *)

Section NotebookContexts.

(** [localize] of [vs/nls] and the interface [INotificationService] are
    declared outside this file: the model is parameterised by them. *)
Variable localize : string → string → string.
Variable INotificationService : Type.

(** [private static get DefaultContext()] *)
Definition DefaultContext : Async IDefaultConnection :=
  defaultConnection <- newObject MSSQL_PROVIDER "-1"
                         (localize "selectConnection" "Select connection") ;;
  ret {| defaultConnection := defaultConnection;
         otherConnections := [defaultConnection] |}.

(** The "Select connection" profile a [DefaultContext] access allocates
    in world [w]. *)
Definition placeholderAt (w : World) : IConnectionProfile :=
  {| self := fresh (heap w); providerName := MSSQL_PROVIDER; id := "-1";
     serverName := localize "selectConnection" "Select connection";
     options := None |}.

(** [private static get LocalContext()] *)
Definition LocalContext : Async IDefaultConnection :=
  localConnection <- newObject MSSQL_PROVIDER "-1"
                       (localize "localhost" "Localhost") ;;
  ret {| defaultConnection := localConnection;
         otherConnections := [localConnection] |}.

(** [profile && profile.options]: an object, empty or not, is truthy. *)
Definition hasOptions (profile : option IConnectionProfile) : bool :=
  match profile with
  | Some p => match options p with Some _ => true | None => false end
  | None => false
  end.

(** [connections.find(connection => connection.serverName === serverName)] *)
Definition findServer (server : string) (connections : list IConnectionProfile)
  : option IConnectionProfile :=
  List.find (λ connection, bool_decide (serverName connection = server))
            connections.

(** Lines 99-113: the provider filter and the choice of the default.
    Returns the new values of [defaultConnection] and [activeConnections].
    The source calls [find] twice with the same predicate on the same array,
    once as the test and once for the value; both give the same object. *)
Definition narrowToProviders (connProviderIds : list string)
    (profile : option IConnectionProfile)
    (chosen : IConnectionProfile) (active : list IConnectionProfile)
  : IConnectionProfile * list IConnectionProfile :=
  if bool_decide (0 < length active) then
    let connections :=
      filter (λ connection, providerName connection ∈ connProviderIds)
             active in
    let chosen :=
      match connections with
      | first :: _ =>
          match profile with
          | Some p =>
              if hasOptions profile then
                match findServer (serverName p) connections with
                | Some found => found
                | None => first
                end
              else first
          | None => first
          end
      | [] => chosen
      end in
    (* activeConnections = []; connections.forEach(c => activeConnections.push(c)) *)
    (chosen, connections)
  else (chosen, active).

(** [public static async getActiveContexts(connectionService, connProviderIds, profile)].
    The locals [defaultConnection] and [activeConnections] of the source are
    [chosen] and [active] here (the former is also a field name). *)
Definition getActiveContexts (connectionService : IConnectionManagementService)
    (connProviderIds : list string) (profile : option IConnectionProfile)
  : Async IDefaultConnection :=
  placeholder <- DefaultContext ;;
  let chosen := defaultConnection placeholder in
  fetched <- getActiveConnections connectionService ;;
  let active :=
    match fetched with
    | Some l =>
        if bool_decide (0 < length l)
        then Some (filter (λ conn, id conn ≠ "-1") l)
        else Some l
    | None => None
    end in
  match active with
  | None => throw (TypeError "Cannot read property 'length' of undefined")
  | Some active =>
      if bool_decide (length active = 0) then
        if bool_decide (length connProviderIds = 0)
        then LocalContext
        else DefaultContext
      else
        let '(chosen, active) :=
          narrowToProviders connProviderIds profile chosen active in
        current <- DefaultContext ;;
        if same_object chosen (defaultConnection current)
        then
          newConnection <- newObject "SQL" "-2"
                             (localize "addConnection" "Add new connection") ;;
          ret {| otherConnections := active ++ [newConnection];
                 defaultConnection := chosen |}
        else
          ret {| otherConnections := active;
                 defaultConnection := chosen |}
  end.

(** [!kernelChangedArgs || !kernelChangedArgs.newValue ||
    (kernelChangedArgs.oldValue &&
     kernelChangedArgs.newValue.id === kernelChangedArgs.oldValue.id)] *)
Definition kernelUnchanged (kernelChangedArgs : option nb.IKernelChangedArgs)
  : bool :=
  match kernelChangedArgs with
  | None => true
  | Some args =>
      match nb.newValue args with
      | None => true
      | Some newValue =>
          match nb.oldValue args with
          | Some oldValue =>
              bool_decide (nb.kernel_id newValue = nb.kernel_id oldValue)
          | None => false
          end
      end
  end.

(** [kernelChangedArgs && kernelChangedArgs.newValue &&
    kernelChangedArgs.newValue.name && connProviderIds.length < 1];
    the empty string is the one falsy [name]. *)
Definition namedKernelWithoutProviders
    (kernelChangedArgs : option nb.IKernelChangedArgs)
    (connProviderIds : list string) : bool :=
  match kernelChangedArgs with
  | Some args =>
      match nb.newValue args with
      | Some newValue =>
          bool_decide (nb.kernel_name newValue ≠ "")
          && bool_decide (length connProviderIds < 1)
      | None => false
      end
  | None => false
  end.

(** [public static async getContextsForKernel(connectionService,
    connProviderIds, kernelChangedArgs?, profile?)] *)
Definition getContextsForKernel
    (connectionService : IConnectionManagementService)
    (connProviderIds : list string)
    (kernelChangedArgs : option nb.IKernelChangedArgs)
    (profile : option IConnectionProfile)
  : Async IDefaultConnection :=
  connections <- DefaultContext ;;
  if match profile with None => kernelUnchanged kernelChangedArgs
                      | Some _ => false end
  then ret connections
  else if namedKernelWithoutProviders kernelChangedArgs connProviderIds
  then ret connections
  else
    connections <- getActiveContexts connectionService connProviderIds profile ;;
    ret connections.

(** [specs.kernels.find(kernel => kernel.name === wanted)] *)
Definition findKernel (wanted : string) (kernels : list nb.IKernelSpec)
  : option nb.IKernelSpec :=
  List.find (λ kernel, bool_decide (nb.name kernel = wanted)) kernels.

(** [public static getDefaultKernel(specs, connectionInfo, savedKernelInfo,
    notificationService)].  Kernel specs are never compared with [===], so
    they are plain records; [None] is [undefined]. *)
Definition getDefaultKernel (specs : option nb.IAllKernels)
    (connectionInfo : option IConnectionProfile)
    (savedKernelInfo : option nb.IKernelInfo)
    (notificationService : INotificationService) : nb.IKernelSpec :=
  let '(defaultKernel, savedKernel) :=
    match specs with
    | Some specs =>
        (findKernel (nb.defaultKernel specs) (nb.kernels specs),
         match savedKernelInfo with
         | Some savedKernelInfo =>
             findKernel (nb.saved_name savedKernelInfo) (nb.kernels specs)
         | None => None
         end)
    | None => (None, None)
    end in
  let defaultKernel :=
    match specs, connectionInfo with
    | Some _, Some _ =>
        match savedKernel with
        | None => defaultKernel
        | Some savedKernel => Some savedKernel
        end
    | _, _ => defaultKernel
    end in
  match defaultKernel with
  | None => {| nb.name := notebookConstants_SQL;
               nb.language := None;
               nb.display_name := Some notebookConstants_SQL |}
  | Some defaultKernel => defaultKernel
  end.

End NotebookContexts.

Arguments getDefaultKernel {INotificationService} specs connectionInfo
  savedKernelInfo notificationService.

(** ** Sample data used by the examples below *)

(** The English bundle: [localize(key, message)] is [message]. *)
Definition localizeEnglish (key message : string) : string := message.

Definition emptyWorld : World := {| heap := ∅; fetch_calls := 0 |}.

Definition mssqlA : IConnectionProfile :=
  {| self := 10; providerName := "MSSQL"; id := "1"; serverName := "A";
     options := None |}.

Definition pgsqlB : IConnectionProfile :=
  {| self := 11; providerName := "PGSQL"; id := "2"; serverName := "B";
     options := None |}.

Definition mssqlB : IConnectionProfile :=
  {| self := 12; providerName := "MSSQL"; id := "3"; serverName := "B";
     options := None |}.

Definition serviceWith (l : list IConnectionProfile)
  : IConnectionManagementService :=
  {| activeConnections := Fulfilled (Some l) |}.

(** A profile for server "B" whose [options] is the empty object [{}]. *)
Definition profileB_emptyOptions : IConnectionProfile :=
  {| self := 20; providerName := "MSSQL"; id := "9"; serverName := "B";
     options := Some ∅ |}.

(** The same profile with the options [{ x: 1 }]. *)
Definition profileB_withOptions : IConnectionProfile :=
  {| self := 22; providerName := "MSSQL"; id := "9"; serverName := "B";
     options := Some {[ "x" := OptNumber 1 ]} |}.

(** The same profile without an [options] property. *)
Definition profileB_noOptions : IConnectionProfile :=
  {| self := 21; providerName := "MSSQL"; id := "9"; serverName := "B";
     options := None |}.

(** The kernel {name: "SQL", display_name: "SQL"} of the last resort. *)
Definition sqlFallback : nb.IKernelSpec :=
  {| nb.name := "SQL"; nb.language := None; nb.display_name := Some "SQL" |}.

Definition pythonKernel : nb.IKernelSpec :=
  {| nb.name := "Python"; nb.language := None; nb.display_name := None |}.

Definition sqlKernel : nb.IKernelSpec :=
  {| nb.name := "SQL"; nb.language := None; nb.display_name := None |}.

(** A restarted kernel: same name, new id. *)
Definition restartedSql : nb.IKernelChangedArgs :=
  {| nb.oldValue := Some {| nb.kernel_id := "k1"; nb.kernel_name := "SQL" |};
     nb.newValue := Some {| nb.kernel_id := "k2"; nb.kernel_name := "SQL" |} |}.

(** ** Auxiliary facts *)

Lemma find_first_match {A} (P : A → bool) (l1 : list A) (x : A) (l2 : list A) :
  P x = true → (∀ y, y ∈ l1 → P y = false) →
  List.find P (l1 ++ x :: l2) = Some x.
Proof.
  intros Hx. induction l1 as [|y l1 IH]; intros Hl1; simpl.
  - by rewrite Hx.
  - rewrite (Hl1 y) by apply list_elem_of_here.
    apply IH. intros z Hz. apply Hl1. by apply list_elem_of_further.
Qed.

Lemma find_no_match {A} (P : A → bool) (l : list A) :
  (∀ y, y ∈ l → P y = false) → List.find P l = None.
Proof.
  induction l as [|y l IH]; intros Hl; simpl; [done|].
  rewrite (Hl y) by apply list_elem_of_here.
  apply IH. intros z Hz. apply Hl. by apply list_elem_of_further.
Qed.

Lemma find_elem_of {A} (P : A → bool) (l : list A) (x : A) :
  List.find P l = Some x → x ∈ l.
Proof.
  intros H. apply list_elem_of_In. by apply List.find_some in H as [? _].
Qed.

Lemma filter_when_nonempty {A} (P : A → Prop) `{!∀ x, Decision (P x)}
    (l : list A) :
  (if bool_decide (0 < length l) then Some (filter P l) else Some l)
  = Some (filter P l).
Proof. destruct l; [done|]. rewrite bool_decide_eq_true_2; [done|simpl; lia]. Qed.

Section Auxiliary.

Variable localize : string → string → string.

Lemma DefaultContext_run (w : World) :
  DefaultContext localize w =
    (Fulfilled {| defaultConnection := placeholderAt localize w;
                  otherConnections := [placeholderAt localize w] |},
     {| heap := {[fresh (heap w)]} ∪ heap w; fetch_calls := fetch_calls w |}).
Proof. reflexivity. Qed.

Lemma narrowToProviders_active ids profile d (active : list IConnectionProfile) :
  active ≠ [] →
  (narrowToProviders ids profile d active).2 =
    filter (λ connection, providerName connection ∈ ids) active.
Proof.
  intros Hne. unfold narrowToProviders.
  rewrite bool_decide_eq_true_2; [done|].
  destruct active; [done|simpl; lia].
Qed.

Lemma narrowToProviders_chosen ids profile d (active : list IConnectionProfile) :
  let connections := filter (λ connection, providerName connection ∈ ids) active in
  (connections = [] ∧ (narrowToProviders ids profile d active).1 = d)
  ∨ (narrowToProviders ids profile d active).1 ∈ connections.
Proof.
  cbv zeta. unfold narrowToProviders.
  destruct active as [|a active'] eqn:Hact.
  { left. split; [done|]. by rewrite bool_decide_eq_false_2 by (simpl; lia). }
  rewrite bool_decide_eq_true_2 by (simpl; lia).
  rewrite <- Hact. clear Hact. cbv zeta.
  destruct (filter _ active) as [|first rest] eqn:Hc; cbn [fst]; [by left|right].
  destruct profile as [p|]; [|apply list_elem_of_here].
  destruct (hasOptions (Some p)); [|apply list_elem_of_here].
  destruct (findServer (serverName p) (first :: rest)) as [found|] eqn:Hf;
    [|apply list_elem_of_here].
  by apply find_elem_of in Hf.
Qed.

(** The comparison of line 114 is between the chosen default and the
    profile of a new [DefaultContext] access: it never holds, so the
    ranking part of [getActiveContexts] always takes the second branch. *)
Lemma getActiveContexts_ranked svc ids profile w conns :
  activeConnections svc = Fulfilled (Some conns) →
  filter (λ conn, id conn ≠ "-1") conns ≠ [] →
  ∃ w', fetch_calls w' = S (fetch_calls w) ∧
    getActiveContexts localize svc ids profile w =
      (Fulfilled
         {| defaultConnection :=
              (narrowToProviders ids profile (placeholderAt localize w)
                 (filter (λ conn, id conn ≠ "-1") conns)).1;
            otherConnections :=
              filter (λ connection, providerName connection ∈ ids)
                     (filter (λ conn, id conn ≠ "-1") conns) |},
       w').
Proof.
  intros Hsvc Hne.
  unfold getActiveContexts, bind at 1. rewrite DefaultContext_run. simpl.
  unfold bind at 1, getActiveConnections. rewrite Hsvc. simpl.
  rewrite filter_when_nonempty.
  set (active := filter (λ conn, id conn ≠ "-1") conns) in *.
  rewrite bool_decide_eq_false_2
    by (destruct active; [done|simpl; lia]).
  pose proof (narrowToProviders_active ids profile (placeholderAt localize w) active Hne)
    as Hsnd.
  pose proof (narrowToProviders_chosen ids profile (placeholderAt localize w) active)
    as Hfst.
  destruct (narrowToProviders ids profile (placeholderAt localize w) active)
    as [chosen narrowed] eqn:Hn.
  simpl in Hsnd, Hfst. subst narrowed.
  unfold bind at 1. rewrite DefaultContext_run. simpl.
  set (H := list_to_set (self <$> conns) ∪ ({[fresh (heap w)]} ∪ heap w)).
  assert (self chosen ∈ H) as Hin.
  { destruct Hfst as [[_ ->]|Hmem].
    - simpl. subst H. set_solver.
    - apply list_elem_of_filter in Hmem as [_ Hmem].
      subst active. apply list_elem_of_filter in Hmem as [_ Hmem].
      subst H. apply elem_of_union_l, elem_of_list_to_set.
      apply list_elem_of_fmap. eauto. }
  unfold same_object. simpl.
  rewrite bool_decide_eq_false_2.
  - eexists. split; [|reflexivity]. reflexivity.
  - intros Heq. apply (is_fresh H). by rewrite <- Heq.
Qed.

(** With nothing left after the "-1" entries are dropped, the call ends in
    one of the two placeholder getters, evaluated in the world [w1] reached
    after the fetch. *)
Lemma getActiveContexts_none_active svc ids profile w conns :
  activeConnections svc = Fulfilled (Some conns) →
  filter (λ conn, id conn ≠ "-1") conns = [] →
  getActiveContexts localize svc ids profile w =
    (if bool_decide (length ids = 0) then LocalContext localize
     else DefaultContext localize)
      {| heap := list_to_set (self <$> conns) ∪ ({[fresh (heap w)]} ∪ heap w);
         fetch_calls := S (fetch_calls w) |}.
Proof.
  intros Hsvc Hempty.
  unfold getActiveContexts, bind at 1. rewrite DefaultContext_run. simpl.
  unfold bind at 1, getActiveConnections. rewrite Hsvc. simpl.
  by rewrite filter_when_nonempty, Hempty.
Qed.

(** A call whose service is rejected, or fulfilled with [undefined], is
    rejected. *)
Lemma getActiveContexts_rejected svc ids profile w :
  (∀ conns, activeConnections svc ≠ Fulfilled (Some conns)) →
  ∃ e, (getActiveContexts localize svc ids profile w).1 = Rejected e.
Proof.
  intros Hsvc.
  unfold getActiveContexts, bind at 1. rewrite DefaultContext_run. simpl.
  unfold bind at 1, getActiveConnections.
  destruct (activeConnections svc) as [[conns|]|e]; simpl; eauto.
  by destruct (Hsvc conns).
Qed.

End Auxiliary.

(** ** Properties of [getContextsForKernel] and [getActiveContexts] *)

Section ContextProperties.

Variable localize : string → string → string.

(** C1 (what the code does instead).  When the active connections, after
    dropping the "-1" entries, are not empty and none of them has an
    allowed provider, the call is fulfilled with the "Select connection"
    placeholder as default and an EMPTY [otherConnections]: the
    "Add new connection" entry (provider "SQL", id "-2") is not appended,
    because the test before it compares the default with the profile of a
    new [DefaultContext] access. *)
Theorem add_new_connection_never_appended svc ids profile w conns :
  activeConnections svc = Fulfilled (Some conns) →
  filter (λ conn, id conn ≠ "-1") conns ≠ [] →
  (∀ c, c ∈ filter (λ conn, id conn ≠ "-1") conns → providerName c ∉ ids) →
  ∃ r w', getActiveContexts localize svc ids profile w = (Fulfilled r, w')
          ∧ defaultConnection r = placeholderAt localize w
          ∧ otherConnections r = [].
Proof.
  intros Hsvc Hne Hnone.
  destruct (getActiveContexts_ranked localize svc ids profile w conns Hsvc Hne)
    as (w' & _ & Hrun).
  set (active := filter (λ conn, id conn ≠ "-1") conns) in *.
  assert (filter (λ connection, providerName connection ∈ ids) active = [])
    as Hempty.
  { destruct (filter _ active) as [|c rest] eqn:Hf; [done|].
    assert (c ∈ filter (λ connection, providerName connection ∈ ids) active)
      as Hc by (rewrite Hf; apply list_elem_of_here).
    apply list_elem_of_filter in Hc as [Hallowed Hc].
    by destruct (Hnone c Hc). }
  eexists _, w'. split; [exact Hrun|]. simpl. split; [|exact Hempty].
  destruct (narrowToProviders_chosen ids profile (placeholderAt localize w) active)
    as [[_ Hd]|Hmem]; [exact Hd|].
  rewrite Hempty in Hmem. by apply not_elem_of_nil in Hmem.
Qed.

(** C2 (amended).  When no profile is supplied and there is no kernel-change
    event, or the event has no new kernel, or the event has an old kernel
    whose id equals the id of the new kernel, [getContextsForKernel] behaves
    exactly as one access to [DefaultContext]: it is fulfilled with the
    placeholder and the number of fetches is unchanged. *)
Theorem getContextsForKernel_same_kernel svc ids args w :
  (args = None
   ∨ (∃ a, args = Some a ∧ nb.newValue a = None)
   ∨ (∃ a o n, args = Some a ∧ nb.oldValue a = Some o ∧ nb.newValue a = Some n
               ∧ nb.kernel_id o = nb.kernel_id n)) →
  getContextsForKernel localize svc ids args None w = DefaultContext localize w
  ∧ fetch_calls (getContextsForKernel localize svc ids args None w).2
    = fetch_calls w.
Proof.
  intros Hargs.
  assert (kernelUnchanged args = true) as Hun.
  { destruct Hargs as [->|[(a & -> & Hn)|(a & o & n & -> & Ho & Hn & Hid)]];
      simpl; [done| by rewrite Hn |].
    rewrite Hn, Ho. by apply bool_decide_eq_true_2. }
  unfold getContextsForKernel, bind. rewrite DefaultContext_run, Hun.
  by split.
Qed.

(** C3 (amended).  With a non-empty provider-filtered list
    [first :: rest], the default is overridden only when a profile is
    supplied and has an [options] object, empty or not: without a profile or
    without [options] the default is [first], whatever the server names;
    with [options] the default is the first entry, in list order, whose
    serverName equals the profile's, and [first] when there is none. *)
Theorem serverName_override svc ids profile w conns first rest :
  activeConnections svc = Fulfilled (Some conns) →
  filter (λ connection, providerName connection ∈ ids)
         (filter (λ conn, id conn ≠ "-1") conns) = first :: rest →
  ∃ r w', getActiveContexts localize svc ids profile w = (Fulfilled r, w')
    ∧ (profile = None → defaultConnection r = first)
    ∧ (∀ p, profile = Some p → options p = None → defaultConnection r = first)
    ∧ (∀ p o before found after,
         profile = Some p → options p = Some o →
         first :: rest = before ++ found :: after →
         serverName found = serverName p →
         (∀ c, c ∈ before → serverName c ≠ serverName p) →
         defaultConnection r = found)
    ∧ (∀ p, profile = Some p →
         (∀ c, c ∈ first :: rest → serverName c ≠ serverName p) →
         defaultConnection r = first).
Proof.
  intros Hsvc Hconn.
  assert (filter (λ conn, id conn ≠ "-1") conns ≠ []) as Hne.
  { intros E. by rewrite E in Hconn. }
  destruct (getActiveContexts_ranked localize svc ids profile w conns Hsvc Hne)
    as (w' & _ & Hrun).
  eexists _, w'. split; [exact Hrun|]. simpl.
  set (active := filter (λ conn, id conn ≠ "-1") conns) in *.
  unfold narrowToProviders.
  rewrite bool_decide_eq_true_2
    by (destruct active; [done|simpl; lia]).
  cbv zeta. rewrite Hconn. cbn [fst].
  repeat split.
  - by intros ->.
  - intros p -> Hopt. unfold hasOptions. by rewrite Hopt.
  - intros p o before found after -> Hopt Hsplit Hname Hbefore.
    unfold hasOptions. rewrite Hopt. unfold findServer. rewrite Hsplit.
    rewrite (find_first_match _ before found after); [done| |].
    + by apply bool_decide_eq_true_2.
    + intros c Hc. apply bool_decide_eq_false_2. by apply Hbefore.
  - intros p -> Hnomatch. unfold hasOptions.
    destruct (options p); [|done]. unfold findServer.
    rewrite find_no_match; [done|].
    intros c Hc. apply bool_decide_eq_false_2. by apply Hnomatch.
Qed.

(** C4.  When the fetched list, after dropping the entries with id "-1",
    is empty, the call is fulfilled with what a [LocalContext] access gives
    (server name "Localhost") if [connProviderIds] is empty, and with what
    a [DefaultContext] access gives (server name "Select connection")
    otherwise; in both cases the default has id "-1" and is the only entry
    of [otherConnections]. *)
Theorem no_active_connections_placeholder svc ids profile w conns :
  activeConnections svc = Fulfilled (Some conns) →
  filter (λ conn, id conn ≠ "-1") conns = [] →
  ∃ w1 r w',
    getActiveContexts localize svc ids profile w = (Fulfilled r, w')
    ∧ (ids = [] →
         LocalContext localize w1 = (Fulfilled r, w')
         ∧ serverName (defaultConnection r) = localize "localhost" "Localhost")
    ∧ (ids ≠ [] →
         DefaultContext localize w1 = (Fulfilled r, w')
         ∧ serverName (defaultConnection r)
           = localize "selectConnection" "Select connection")
    ∧ providerName (defaultConnection r) = "MSSQL"
    ∧ id (defaultConnection r) = "-1"
    ∧ otherConnections r = [defaultConnection r].
Proof.
  intros Hsvc Hempty.
  rewrite (getActiveContexts_none_active localize svc ids profile w conns Hsvc Hempty).
  set (w1 := {| heap := _; fetch_calls := _ |}).
  exists w1. destruct ids as [|i ids]; simpl.
  - eexists _, _. split; [reflexivity|]. by repeat split.
  - eexists _, _. split; [reflexivity|]. by repeat split.
Qed.

(** C5 (amended).  For active connections MSSQL/A and PGSQL/B, allowed
    providers ["MSSQL"] and no profile, the call is fulfilled with default
    MSSQL/A and otherConnections [MSSQL/A].  In general, for every profile,
    when the provider-filtered list is [first :: rest] the call is fulfilled,
    [otherConnections] is exactly [first :: rest], and the default is [first]
    unless the profile has an [options] object and some entry has the
    profile's serverName; then the default is the first such entry. *)
Theorem default_is_first_allowed :
  (∀ w, ∃ w',
      getActiveContexts localize (serviceWith [mssqlA; pgsqlB]) ["MSSQL"] None w
      = (Fulfilled {| defaultConnection := mssqlA;
                      otherConnections := [mssqlA] |}, w'))
  ∧ (∀ svc ids profile w conns first rest,
       activeConnections svc = Fulfilled (Some conns) →
       filter (λ connection, providerName connection ∈ ids)
              (filter (λ conn, id conn ≠ "-1") conns) = first :: rest →
       ∃ r w',
         getActiveContexts localize svc ids profile w = (Fulfilled r, w')
         ∧ otherConnections r = first :: rest
         ∧ (profile = None
            ∨ (∃ p, profile = Some p
                    ∧ (options p = None
                       ∨ ∀ c, c ∈ first :: rest → serverName c ≠ serverName p)) →
            defaultConnection r = first)
         ∧ (∀ p o before found after,
              profile = Some p → options p = Some o →
              first :: rest = before ++ found :: after →
              serverName found = serverName p →
              (∀ c, c ∈ before → serverName c ≠ serverName p) →
              defaultConnection r = found)).
Proof.
  assert (∀ svc ids profile w conns first rest,
       activeConnections svc = Fulfilled (Some conns) →
       filter (λ connection, providerName connection ∈ ids)
              (filter (λ conn, id conn ≠ "-1") conns) = first :: rest →
       ∃ r w',
         getActiveContexts localize svc ids profile w = (Fulfilled r, w')
         ∧ otherConnections r = first :: rest
         ∧ (profile = None
            ∨ (∃ p, profile = Some p
                    ∧ (options p = None
                       ∨ ∀ c, c ∈ first :: rest → serverName c ≠ serverName p)) →
            defaultConnection r = first)
         ∧ (∀ p o before found after,
              profile = Some p → options p = Some o →
              first :: rest = before ++ found :: after →
              serverName found = serverName p →
              (∀ c, c ∈ before → serverName c ≠ serverName p) →
              defaultConnection r = found))
    as General.
  { intros svc ids profile w conns first rest Hsvc Hconn.
    assert (filter (λ conn, id conn ≠ "-1") conns ≠ []) as Hne.
    { intros E. by rewrite E in Hconn. }
    destruct (getActiveContexts_ranked localize svc ids profile w conns Hsvc Hne)
      as (w' & _ & Hrun).
    eexists _, w'. split; [exact Hrun|]. simpl.
    split; [exact Hconn|].
    unfold narrowToProviders.
    rewrite bool_decide_eq_true_2
      by (destruct (filter _ conns); [done|simpl; lia]).
    cbv zeta. rewrite Hconn. cbn [fst]. split.
    - intros [->|(p & -> & [Hopt|Hnomatch])]; [done| |].
      + unfold hasOptions. by rewrite Hopt.
      + unfold hasOptions. destruct (options p); [|done].
        unfold findServer. rewrite find_no_match; [done|].
        intros c Hc. apply bool_decide_eq_false_2. by apply Hnomatch.
    - intros p o before found after -> Hopt Hsplit Hname Hbefore.
      unfold hasOptions. rewrite Hopt. unfold findServer. rewrite Hsplit.
      rewrite (find_first_match _ before found after); [done| |].
      + by apply bool_decide_eq_true_2.
      + intros c Hc. apply bool_decide_eq_false_2. by apply Hbefore. }
  split; [|exact General].
  intros w.
  destruct (General (serviceWith [mssqlA; pgsqlB]) ["MSSQL"] None w
              [mssqlA; pgsqlB] mssqlA [] eq_refl eq_refl)
    as ([d o] & w' & Hrun & Hother & Hfirst & _).
  exists w'. rewrite Hrun. simpl in *. rewrite Hother, Hfirst; [done|by left].
Qed.

(** C8.  Whenever the service is fulfilled with an array the call is
    fulfilled, and in every result of [getActiveContexts] whose default is
    not a placeholder (its id is not "-1") the default is a member of
    [otherConnections]. *)
Theorem default_among_others svc ids profile w :
  (∀ conns, activeConnections svc = Fulfilled (Some conns) →
            ∃ r, (getActiveContexts localize svc ids profile w).1 = Fulfilled r)
  ∧ (∀ r, (getActiveContexts localize svc ids profile w).1 = Fulfilled r →
          id (defaultConnection r) ≠ "-1" →
          defaultConnection r ∈ otherConnections r).
Proof.
  split.
  - intros conns Hsvc.
    destruct (decide (filter (λ conn, id conn ≠ "-1") conns = [])) as [He|Hne].
    + rewrite (getActiveContexts_none_active localize svc ids profile w conns Hsvc He).
      destruct (bool_decide (length ids = 0)); by eexists.
    + destruct (getActiveContexts_ranked localize svc ids profile w conns Hsvc Hne)
        as (w' & _ & Hrun).
      eexists. by rewrite Hrun.
  - intros r Hrun Hid.
    destruct (activeConnections svc) as [[conns|]|e] eqn:Hsvc.
    + destruct (decide (filter (λ conn, id conn ≠ "-1") conns = [])) as [He|Hne].
      * rewrite (getActiveContexts_none_active localize svc ids profile w conns Hsvc He)
          in Hrun.
        destruct (bool_decide (length ids = 0)); simpl in Hrun;
          simplify_eq; by simpl in Hid.
      * destruct (getActiveContexts_ranked localize svc ids profile w conns Hsvc Hne)
          as (w' & _ & Hrun').
        rewrite Hrun' in Hrun. simpl in Hrun. simplify_eq. simpl in *.
        destruct (narrowToProviders_chosen ids profile (placeholderAt localize w)
                    (filter (λ conn, id conn ≠ "-1") conns))
          as [[_ Hd]|Hmem]; [|exact Hmem].
        rewrite Hd in Hid. by simpl in Hid.
    + destruct (getActiveContexts_rejected localize svc ids profile w) as [e He].
      { intros conns. by rewrite Hsvc. }
      by rewrite He in Hrun.
    + destruct (getActiveContexts_rejected localize svc ids profile w) as [e' He].
      { intros conns. by rewrite Hsvc. }
      by rewrite He in Hrun.
Qed.

End ContextProperties.

(** ** Properties of [getDefaultKernel] *)

Section KernelProperties.

Context {INotificationService : Type}.

(** C6.  With [specs], [connectionInfo] and [savedKernelInfo] all supplied:
    the first kernel of [specs.kernels], in list order, whose name is
    exactly the saved name is returned, whatever [specs.defaultKernel]
    matches; when no kernel has the saved name, the first kernel whose name
    is exactly [specs.defaultKernel] is returned. *)
Theorem saved_kernel_preferred (specs : nb.IAllKernels)
    (connectionInfo : IConnectionProfile) (saved : nb.IKernelInfo)
    (notificationService : INotificationService) :
  (∀ before k after,
      nb.kernels specs = before ++ k :: after →
      nb.name k = nb.saved_name saved →
      (∀ x, x ∈ before → nb.name x ≠ nb.saved_name saved) →
      getDefaultKernel (Some specs) (Some connectionInfo) (Some saved)
                       notificationService = k)
  ∧ (∀ before d after,
      (∀ x, x ∈ nb.kernels specs → nb.name x ≠ nb.saved_name saved) →
      nb.kernels specs = before ++ d :: after →
      nb.name d = nb.defaultKernel specs →
      (∀ x, x ∈ before → nb.name x ≠ nb.defaultKernel specs) →
      getDefaultKernel (Some specs) (Some connectionInfo) (Some saved)
                       notificationService = d).
Proof.
  split.
  - intros before k after Hsplit Hname Hbefore.
    unfold getDefaultKernel, findKernel. rewrite Hsplit.
    rewrite (find_first_match (λ kernel,
               bool_decide (nb.name kernel = nb.saved_name saved)) before k after);
      [done| |].
    + by apply bool_decide_eq_true_2.
    + intros x Hx. apply bool_decide_eq_false_2. by apply Hbefore.
  - intros before d after Hnosaved Hsplit Hname Hbefore.
    unfold getDefaultKernel, findKernel.
    rewrite (find_no_match (λ kernel,
               bool_decide (nb.name kernel = nb.saved_name saved))).
    2:{ intros x Hx. apply bool_decide_eq_false_2. by apply Hnosaved. }
    rewrite Hsplit.
    rewrite (find_first_match _ before d after); [done| |].
    + by apply bool_decide_eq_true_2.
    + intros x Hx. apply bool_decide_eq_false_2. by apply Hbefore.
Qed.

(** C7.  [getDefaultKernel] always returns a kernel spec: a kernel of
    [specs.kernels] or the fallback {name "SQL", display_name "SQL"}.  It
    returns the fallback when [specs] is absent, in particular when all
    three arguments are absent, and when no kernel of [specs.kernels] is
    named [specs.defaultKernel] and none has the saved name. *)
Theorem getDefaultKernel_total_with_fallback
    (notificationService : INotificationService) :
  getDefaultKernel None None None notificationService
  = {| nb.name := "SQL"; nb.language := None; nb.display_name := Some "SQL" |}
  ∧ (∀ connectionInfo savedKernelInfo,
       getDefaultKernel None connectionInfo savedKernelInfo
                        notificationService = sqlFallback)
  ∧ (∀ specs connectionInfo savedKernelInfo,
       (∀ k, k ∈ nb.kernels specs → nb.name k ≠ nb.defaultKernel specs) →
       (∀ saved k, savedKernelInfo = Some saved → k ∈ nb.kernels specs →
                   nb.name k ≠ nb.saved_name saved) →
       getDefaultKernel (Some specs) connectionInfo savedKernelInfo
                        notificationService = sqlFallback)
  ∧ (∀ specs connectionInfo savedKernelInfo,
       getDefaultKernel specs connectionInfo savedKernelInfo
                        notificationService = sqlFallback
       ∨ ∃ s, specs = Some s
              ∧ getDefaultKernel specs connectionInfo savedKernelInfo
                                 notificationService ∈ nb.kernels s).
Proof.
  split; [done|]. split; [by intros [?|] [?|]|]. split.
  - intros specs connectionInfo savedKernelInfo Hdefault Hsaved.
    unfold getDefaultKernel, findKernel.
    rewrite (find_no_match (λ kernel,
               bool_decide (nb.name kernel = nb.defaultKernel specs))).
    2:{ intros x Hx. apply bool_decide_eq_false_2. by apply Hdefault. }
    destruct savedKernelInfo as [saved|]; [|by destruct connectionInfo].
    rewrite find_no_match; [by destruct connectionInfo|].
    intros x Hx. apply bool_decide_eq_false_2. by apply (Hsaved saved).
  - intros [s|] connectionInfo savedKernelInfo; [|by left].
    unfold getDefaultKernel.
    destruct (findKernel (nb.defaultKernel s) (nb.kernels s)) as [d|] eqn:Hd;
      destruct savedKernelInfo as [saved|];
      try destruct (findKernel (nb.saved_name saved) (nb.kernels s))
        as [k|] eqn:Hk;
      destruct connectionInfo as [c|];
      first [ by left
            | right; exists s; split; [done|]; eauto using find_elem_of ].
Qed.

(** C9.  The value of [getDefaultKernel] does not depend on the
    notification service it is given, nor on the type of that service. *)
Theorem notificationService_unused {OtherService : Type}
    specs connectionInfo savedKernelInfo
    (service1 : INotificationService) (service2 : OtherService) :
  getDefaultKernel specs connectionInfo savedKernelInfo service1
  = getDefaultKernel specs connectionInfo savedKernelInfo service2.
Proof. reflexivity. Qed.

(** C10.  With [specs] and [savedKernelInfo] supplied and [connectionInfo]
    absent, the saved kernel plays no part: the result is the one obtained
    without [savedKernelInfo], namely the first kernel named
    [specs.defaultKernel], or the fallback when there is none, even when a
    kernel has the saved name. *)
Theorem saved_kernel_ignored_without_connection (specs : nb.IAllKernels)
    (saved : nb.IKernelInfo) (notificationService : INotificationService) :
  getDefaultKernel (Some specs) None (Some saved) notificationService
  = getDefaultKernel (Some specs) None None notificationService
  ∧ (∀ before d after,
       nb.kernels specs = before ++ d :: after →
       nb.name d = nb.defaultKernel specs →
       (∀ x, x ∈ before → nb.name x ≠ nb.defaultKernel specs) →
       getDefaultKernel (Some specs) None (Some saved) notificationService = d)
  ∧ ((∀ x, x ∈ nb.kernels specs → nb.name x ≠ nb.defaultKernel specs) →
     getDefaultKernel (Some specs) None (Some saved) notificationService
     = sqlFallback).
Proof.
  split; [done|]. split.
  - intros before d after Hsplit Hname Hbefore.
    unfold getDefaultKernel, findKernel. rewrite Hsplit.
    rewrite (find_first_match (λ kernel,
               bool_decide (nb.name kernel = nb.defaultKernel specs))
               before d after); [done| |].
    + by apply bool_decide_eq_true_2.
    + intros x Hx. apply bool_decide_eq_false_2. by apply Hbefore.
  - intros Hnone. unfold getDefaultKernel, findKernel.
    rewrite (find_no_match (λ kernel,
               bool_decide (nb.name kernel = nb.defaultKernel specs)));
      [done|].
    intros x Hx. apply bool_decide_eq_false_2. by apply Hnone.
Qed.

End KernelProperties.

(** ** The properties at concrete inputs *)

(** C1 at the input [PGSQL/B] with allowed providers ["MSSQL"]: nothing is
    appended to [otherConnections]. *)
Lemma add_new_connection_never_appended_witness :
  ∃ r w',
    getActiveContexts localizeEnglish (serviceWith [pgsqlB]) ["MSSQL"] None
                      emptyWorld = (Fulfilled r, w')
    ∧ defaultConnection r = placeholderAt localizeEnglish emptyWorld
    ∧ otherConnections r = [].
Proof.
  apply (add_new_connection_never_appended localizeEnglish
           (serviceWith [pgsqlB]) ["MSSQL"] None emptyWorld [pgsqlB]).
  - reflexivity.
  - vm_compute. discriminate.
  - intros c Hc. vm_compute in Hc.
    apply list_elem_of_singleton in Hc. subst c. vm_compute.
    intros Hin. apply list_elem_of_singleton in Hin. discriminate.
Defined.

(** C2, refuted as stated: a restarted kernel has the name of the old one and
    another id; with no profile and an allowed provider the connections are
    fetched and the result is a real connection. *)
Lemma same_kernel_name_still_fetches :
  nb.kernel_name <$> nb.oldValue restartedSql
  = nb.kernel_name <$> nb.newValue restartedSql
  ∧ (getContextsForKernel localizeEnglish (serviceWith [mssqlA]) ["MSSQL"]
       (Some restartedSql) None emptyWorld).1
    = Fulfilled {| defaultConnection := mssqlA; otherConnections := [mssqlA] |}
  ∧ fetch_calls (getContextsForKernel localizeEnglish (serviceWith [mssqlA])
                   ["MSSQL"] (Some restartedSql) None emptyWorld).2 = 1
  ∧ getContextsForKernel localizeEnglish (serviceWith [mssqlA]) ["MSSQL"]
      (Some restartedSql) None emptyWorld
    ≠ DefaultContext localizeEnglish emptyWorld.
Proof.
  split; [reflexivity|]. split; [by vm_compute|]. split; [by vm_compute|].
  intros Heq. apply (f_equal (λ x, fetch_calls x.2)) in Heq.
  vm_compute in Heq. discriminate.
Qed.

(** C2 (amended) at a kernel-change event with equal ids. *)
Lemma getContextsForKernel_same_kernel_witness :
  getContextsForKernel localizeEnglish (serviceWith [mssqlA]) ["MSSQL"]
    (Some {| nb.oldValue := Some {| nb.kernel_id := "k1"; nb.kernel_name := "SQL" |};
             nb.newValue := Some {| nb.kernel_id := "k1"; nb.kernel_name := "Python" |} |})
    None emptyWorld
  = DefaultContext localizeEnglish emptyWorld
  ∧ fetch_calls
      (getContextsForKernel localizeEnglish (serviceWith [mssqlA]) ["MSSQL"]
         (Some {| nb.oldValue := Some {| nb.kernel_id := "k1"; nb.kernel_name := "SQL" |};
                  nb.newValue := Some {| nb.kernel_id := "k1"; nb.kernel_name := "Python" |} |})
         None emptyWorld).2
    = fetch_calls emptyWorld.
Proof.
  apply (getContextsForKernel_same_kernel localizeEnglish).
  right. right. eexists _, _, _. repeat split; reflexivity.
Defined.

(** C3, refuted as stated: the profile for server "B" has the empty object
    as [options], and MSSQL/B still replaces the first entry MSSQL/A as
    default. *)
Lemma empty_options_still_override :
  options profileB_emptyOptions = Some ∅
  ∧ (getActiveContexts localizeEnglish (serviceWith [mssqlA; mssqlB]) ["MSSQL"]
       (Some profileB_emptyOptions) emptyWorld).1
    = Fulfilled {| defaultConnection := mssqlB;
                   otherConnections := [mssqlA; mssqlB] |}.
Proof. split; [reflexivity|by vm_compute]. Qed.

(** C3 (amended) at the same connections. *)
Lemma serverName_override_witness :
  ∃ r w',
    getActiveContexts localizeEnglish (serviceWith [mssqlA; mssqlB]) ["MSSQL"]
      (Some profileB_noOptions) emptyWorld = (Fulfilled r, w')
    ∧ defaultConnection r = mssqlA.
Proof.
  destruct (serverName_override localizeEnglish (serviceWith [mssqlA; mssqlB])
              ["MSSQL"] (Some profileB_noOptions) emptyWorld
              [mssqlA; mssqlB] mssqlA [mssqlB] eq_refl eq_refl)
    as (r & w' & Hrun & _ & Hnone & _).
  exists r, w'. split; [exact Hrun|].
  apply (Hnone profileB_noOptions); reflexivity.
Defined.

(** C4 with no active connection and no allowed provider. *)
Lemma no_active_connections_placeholder_witness :
  ∃ w1 r w',
    getActiveContexts localizeEnglish (serviceWith []) [] None emptyWorld
    = (Fulfilled r, w')
    ∧ (([] : list string) = [] →
         LocalContext localizeEnglish w1 = (Fulfilled r, w')
         ∧ serverName (defaultConnection r) = "Localhost")
    ∧ (([] : list string) ≠ [] →
         DefaultContext localizeEnglish w1 = (Fulfilled r, w')
         ∧ serverName (defaultConnection r) = "Select connection")
    ∧ providerName (defaultConnection r) = "MSSQL"
    ∧ id (defaultConnection r) = "-1"
    ∧ otherConnections r = [defaultConnection r].
Proof.
  apply (no_active_connections_placeholder localizeEnglish (serviceWith [])
           [] None emptyWorld []); reflexivity.
Defined.

(** C5, refuted as stated for every profile: the provider-filtered list is
    MSSQL/A, MSSQL/B and, with the profile for server "B" that has options
    [{ x: 1 }], the default is MSSQL/B, not the first element. *)
Lemma default_not_first_with_matching_profile :
  filter (λ connection, providerName connection ∈ ["MSSQL"])
         (filter (λ conn, id conn ≠ "-1") [mssqlA; mssqlB]) = [mssqlA; mssqlB]
  ∧ (getActiveContexts localizeEnglish (serviceWith [mssqlA; mssqlB]) ["MSSQL"]
       (Some profileB_withOptions) emptyWorld).1
    = Fulfilled {| defaultConnection := mssqlB;
                   otherConnections := [mssqlA; mssqlB] |}
  ∧ mssqlB ≠ mssqlA.
Proof. split; [reflexivity|]. split; [by vm_compute|discriminate]. Qed.

(** C5 (amended) with two allowed connections behind a placeholder entry and
    the profile for server "B" without options. *)
Lemma default_is_first_allowed_witness :
  ∃ r w',
    getActiveContexts localizeEnglish
      (serviceWith [placeholderAt localizeEnglish emptyWorld; pgsqlB; mssqlA; mssqlB])
      ["MSSQL"] (Some profileB_noOptions) emptyWorld
    = (Fulfilled r, w')
    ∧ otherConnections r = [mssqlA; mssqlB]
    ∧ defaultConnection r = mssqlA.
Proof.
  destruct (proj2 (default_is_first_allowed localizeEnglish)
              (serviceWith [placeholderAt localizeEnglish emptyWorld;
                            pgsqlB; mssqlA; mssqlB])
              ["MSSQL"] (Some profileB_noOptions) emptyWorld
              [placeholderAt localizeEnglish emptyWorld; pgsqlB; mssqlA; mssqlB]
              mssqlA [mssqlB] eq_refl eq_refl)
    as (r & w' & Hrun & Hother & Hfirst & _).
  exists r, w'. split; [exact Hrun|]. split; [exact Hother|].
  apply Hfirst. right. exists profileB_noOptions.
  split; [reflexivity|]. left. reflexivity.
Defined.

(** C8 at the connections MSSQL/A, PGSQL/B. *)
Lemma default_among_others_witness :
  ∃ r, (getActiveContexts localizeEnglish (serviceWith [mssqlA; pgsqlB])
          ["MSSQL"] None emptyWorld).1 = Fulfilled r
       ∧ defaultConnection r ∈ otherConnections r.
Proof.
  exists {| defaultConnection := mssqlA; otherConnections := [mssqlA] |}.
  assert ((getActiveContexts localizeEnglish (serviceWith [mssqlA; pgsqlB])
             ["MSSQL"] None emptyWorld).1
          = Fulfilled {| defaultConnection := mssqlA;
                         otherConnections := [mssqlA] |}) as Hrun
    by (vm_compute; reflexivity).
  split; [exact Hrun|].
  apply (proj2 (default_among_others localizeEnglish
                  (serviceWith [mssqlA; pgsqlB]) ["MSSQL"] None emptyWorld)
           _ Hrun).
  simpl. discriminate.
Defined.

(** C6 on the kernels Python, SQL with default "SQL" and saved "Python". *)
Lemma saved_kernel_preferred_witness :
  getDefaultKernel (Some (nb.mkAllKernels "SQL" [pythonKernel; sqlKernel]))
                   (Some mssqlA) (Some (nb.mkKernelInfo "Python")) tt
  = pythonKernel.
Proof.
  apply (proj1 (saved_kernel_preferred
                  (nb.mkAllKernels "SQL" [pythonKernel; sqlKernel])
                  mssqlA (nb.mkKernelInfo "Python") tt) [] pythonKernel [sqlKernel]).
  - reflexivity.
  - reflexivity.
  - intros x Hx. by apply not_elem_of_nil in Hx.
Defined.

(** C7 on specs without kernels. *)
Lemma getDefaultKernel_total_with_fallback_witness :
  getDefaultKernel (Some (nb.mkAllKernels "SQL" [])) (Some mssqlA)
                   (Some (nb.mkKernelInfo "Python")) tt
  = sqlFallback.
Proof.
  apply (proj1 (proj2 (proj2 (getDefaultKernel_total_with_fallback tt)))).
  - intros k Hk. by apply not_elem_of_nil in Hk.
  - intros saved k _ Hk. by apply not_elem_of_nil in Hk.
Defined.

(** C10 on the kernels Python, SQL with default "SQL" and saved "Python". *)
Lemma saved_kernel_ignored_without_connection_witness :
  getDefaultKernel (Some (nb.mkAllKernels "SQL" [pythonKernel; sqlKernel]))
                   None (Some (nb.mkKernelInfo "Python")) tt
  = sqlKernel.
Proof.
  apply (proj1 (proj2 (saved_kernel_ignored_without_connection
                         (nb.mkAllKernels "SQL" [pythonKernel; sqlKernel])
                         (nb.mkKernelInfo "Python") tt))
           [pythonKernel] sqlKernel []).
  - reflexivity.
  - reflexivity.
  - intros x Hx. apply list_elem_of_singleton in Hx. by subst x.
Defined.

(** ** Further properties of the three methods *)

Section FurtherContextProperties.

Variable localize : string → string → string.

(** [getContextsForKernel] is one [DefaultContext] access followed either by
    nothing or by the whole of [getActiveContexts]. *)
Lemma getContextsForKernel_cases svc ids args profile w :
  getContextsForKernel localize svc ids args profile w =
    if match profile with None => kernelUnchanged args | Some _ => false end
       || namedKernelWithoutProviders args ids
    then DefaultContext localize w
    else getActiveContexts localize svc ids profile (DefaultContext localize w).2.
Proof.
  unfold getContextsForKernel, bind at 1. rewrite DefaultContext_run.
  destruct (match profile with None => _ | Some _ => _ end); [done|].
  destruct (namedKernelWithoutProviders args ids); [done|]. simpl.
  unfold bind at 1.
  by destruct (getActiveContexts localize svc ids profile _) as [[r|e] w'].
Qed.

Lemma getActiveContexts_not_fetched svc ids profile w :
  (∀ conns, activeConnections svc ≠ Fulfilled (Some conns)) →
  getActiveContexts localize svc ids profile w =
    (match activeConnections svc with
     | Rejected e => Rejected e
     | _ => Rejected (TypeError "Cannot read property 'length' of undefined")
     end,
     {| heap := {[fresh (heap w)]} ∪ heap w; fetch_calls := S (fetch_calls w) |}).
Proof.
  intros Hsvc.
  unfold getActiveContexts, bind at 1. rewrite DefaultContext_run. simpl.
  unfold bind at 1, getActiveConnections.
  destruct (activeConnections svc) as [[conns|]|e]; simpl.
  - by destruct (Hsvc conns).
  - unfold throw. by rewrite (left_id_L ∅ (∪)).
  - by rewrite (left_id_L ∅ (∪)).
Qed.

(** X1.  When the kernel-change event has a new kernel with a non-empty name
    and no provider is allowed, [getContextsForKernel] behaves as one
    [DefaultContext] access and fetches nothing, whatever the profile and
    whatever the old kernel. *)
Theorem getContextsForKernel_no_providers svc args profile w n :
  nb.newValue args = Some n →
  nb.kernel_name n ≠ "" →
  getContextsForKernel localize svc [] (Some args) profile w
  = DefaultContext localize w
  ∧ fetch_calls (getContextsForKernel localize svc [] (Some args) profile w).2
    = fetch_calls w.
Proof.
  intros Hn Hname. rewrite getContextsForKernel_cases.
  assert (namedKernelWithoutProviders (Some args) [] = true) as ->.
  { unfold namedKernelWithoutProviders. rewrite Hn.
    apply andb_true_intro.
    split; apply bool_decide_eq_true_2; [done|simpl; lia]. }
  by rewrite orb_true_r.
Qed.

(** X2.  When a profile is supplied, or the event has a new kernel whose id
    differs from that of every old kernel it has, and moreover a provider is
    allowed or there is no new kernel with a non-empty name,
    [getContextsForKernel] is [getActiveContexts] run after one
    [DefaultContext] access: same outcome, same final world. *)
Theorem getContextsForKernel_delegates svc ids args profile w :
  (is_Some profile
   ∨ ∃ a n, args = Some a ∧ nb.newValue a = Some n
            ∧ ∀ o, nb.oldValue a = Some o → nb.kernel_id n ≠ nb.kernel_id o) →
  (ids ≠ []
   ∨ args = None
   ∨ ∃ a, args = Some a
          ∧ (nb.newValue a = None
             ∨ ∃ n, nb.newValue a = Some n ∧ nb.kernel_name n = "")) →
  getContextsForKernel localize svc ids args profile w
  = getActiveContexts localize svc ids profile (DefaultContext localize w).2.
Proof.
  intros Hchanged Hprov. rewrite getContextsForKernel_cases.
  assert (match profile with None => kernelUnchanged args | Some _ => false end
          = false) as ->.
  { destruct Hchanged as [[p ->]|(a & n & -> & Hn & Hold)]; [done|].
    destruct profile; [done|]. unfold kernelUnchanged. rewrite Hn.
    destruct (nb.oldValue a) as [o|]; [|done].
    apply bool_decide_eq_false_2. by apply Hold. }
  assert (namedKernelWithoutProviders args ids = false) as ->; [|done].
  unfold namedKernelWithoutProviders.
  destruct Hprov as [Hids|[->|(a & -> & [->|(n & -> & Hname)])]]; try done.
  - destruct args as [a|]; [|done]. destruct (nb.newValue a); [|done].
    apply andb_false_intro2, bool_decide_eq_false_2.
    destruct ids; [done|simpl; lia].
  - apply andb_false_intro1, bool_decide_eq_false_2. by intros [].
Qed.

(** X3.  [getActiveContexts] calls the service exactly once, whether it ends
    fulfilled or rejected; [getContextsForKernel] calls it at most once. *)
Theorem fetched_at_most_once svc ids args profile w :
  fetch_calls (getActiveContexts localize svc ids profile w).2
  = S (fetch_calls w)
  ∧ (fetch_calls (getContextsForKernel localize svc ids args profile w).2
     = fetch_calls w
     ∨ fetch_calls (getContextsForKernel localize svc ids args profile w).2
       = S (fetch_calls w)).
Proof.
  assert (∀ w, fetch_calls (getActiveContexts localize svc ids profile w).2
               = S (fetch_calls w)) as Honce.
  { clear w. intros w.
    destruct (activeConnections svc) as [[conns|]|e] eqn:Hsvc.
    - destruct (decide (filter (λ conn, id conn ≠ "-1") conns = [])) as [He|Hne].
      + rewrite (getActiveContexts_none_active localize svc ids profile w conns
                   Hsvc He).
        by destruct (bool_decide (length ids = 0)).
      + destruct (getActiveContexts_ranked localize svc ids profile w conns
                    Hsvc Hne) as (w' & Hcalls & ->).
        exact Hcalls.
    - rewrite getActiveContexts_not_fetched; [done|]. intros conns.
      by rewrite Hsvc.
    - rewrite getActiveContexts_not_fetched; [done|]. intros conns.
      by rewrite Hsvc. }
  split; [apply Honce|].
  rewrite getContextsForKernel_cases.
  destruct (_ || _); [by left|right]. by rewrite Honce.
Qed.

(** X4.  When the service rejects, [getActiveContexts] is rejected with the
    same error, and so is [getContextsForKernel] whenever a profile is
    supplied and a provider is allowed. *)
Theorem service_rejection_propagates svc ids profile w e :
  activeConnections svc = Rejected e →
  (getActiveContexts localize svc ids profile w).1 = Rejected e
  ∧ (∀ args p, ids ≠ [] →
       (getContextsForKernel localize svc ids args (Some p) w).1 = Rejected e).
Proof.
  intros Hsvc.
  assert (∀ profile w,
            (getActiveContexts localize svc ids profile w).1 = Rejected e)
    as Hrej.
  { intros profile' w'. rewrite getActiveContexts_not_fetched.
    - by rewrite Hsvc.
    - intros conns. by rewrite Hsvc. }
  split; [apply Hrej|].
  intros args p Hids. rewrite getContextsForKernel_cases. simpl.
  assert (namedKernelWithoutProviders args ids = false) as ->; [|apply Hrej].
  unfold namedKernelWithoutProviders.
  destruct args as [a|]; [|done]. destruct (nb.newValue a); [|done].
  apply andb_false_intro2, bool_decide_eq_false_2.
  destruct ids; [done|simpl; lia].
Qed.

(** X5.  When the service is fulfilled with [undefined], the guard of line 79
    is passed over and the read of [length] at line 82 rejects the call with
    a TypeError. *)
Theorem undefined_connections_rejected svc ids profile w :
  activeConnections svc = Fulfilled None →
  ∃ message,
    (getActiveContexts localize svc ids profile w).1
    = Rejected (TypeError message).
Proof.
  intros Hsvc. eexists. rewrite getActiveContexts_not_fetched.
  - by rewrite Hsvc.
  - intros conns. by rewrite Hsvc.
Qed.

(** X6.  The profile only takes part in the choice of the default: two calls
    of [getActiveContexts] that differ in the profile alone and are both
    fulfilled return the same [otherConnections]. *)
Theorem profile_never_changes_otherConnections svc ids profile1 profile2 w r1 r2 :
  (getActiveContexts localize svc ids profile1 w).1 = Fulfilled r1 →
  (getActiveContexts localize svc ids profile2 w).1 = Fulfilled r2 →
  otherConnections r1 = otherConnections r2.
Proof.
  intros H1 H2.
  destruct (activeConnections svc) as [[conns|]|e] eqn:Hsvc.
  - destruct (decide (filter (λ conn, id conn ≠ "-1") conns = [])) as [He|Hne].
    + rewrite (getActiveContexts_none_active localize svc ids profile1 w conns
                 Hsvc He) in H1.
      rewrite (getActiveContexts_none_active localize svc ids profile2 w conns
                 Hsvc He) in H2.
      rewrite H1 in H2. by simplify_eq.
    + destruct (getActiveContexts_ranked localize svc ids profile1 w conns
                  Hsvc Hne) as (w1 & _ & Hrun1).
      destruct (getActiveContexts_ranked localize svc ids profile2 w conns
                  Hsvc Hne) as (w2 & _ & Hrun2).
      rewrite Hrun1 in H1. rewrite Hrun2 in H2. simpl in H1, H2.
      by simplify_eq.
  - destruct (getActiveContexts_rejected localize svc ids profile1 w) as [e He].
    { intros conns. by rewrite Hsvc. }
    by rewrite He in H1.
  - destruct (getActiveContexts_rejected localize svc ids profile1 w) as [e' He].
    { intros conns. by rewrite Hsvc. }
    by rewrite He in H1.
Qed.

(** X7.  The default of a fulfilled [getActiveContexts] is either a
    placeholder written by this class (provider "MSSQL", id "-1", no
    options) or one of the fetched connections, with an allowed provider and
    an id other than "-1"; in particular it is never the profile passed in
    unless the service lists that very object. *)
Theorem default_is_placeholder_or_allowed svc ids profile w conns r :
  activeConnections svc = Fulfilled (Some conns) →
  (getActiveContexts localize svc ids profile w).1 = Fulfilled r →
  (providerName (defaultConnection r) = "MSSQL"
   ∧ id (defaultConnection r) = "-1"
   ∧ options (defaultConnection r) = None)
  ∨ (defaultConnection r ∈ conns
     ∧ providerName (defaultConnection r) ∈ ids
     ∧ id (defaultConnection r) ≠ "-1").
Proof.
  intros Hsvc Hrun.
  destruct (decide (filter (λ conn, id conn ≠ "-1") conns = [])) as [He|Hne].
  - rewrite (getActiveContexts_none_active localize svc ids _ w conns Hsvc He)
      in Hrun.
    left. destruct (bool_decide (length ids = 0)); simpl in Hrun;
      by simplify_eq.
  - destruct (getActiveContexts_ranked localize svc ids profile w conns
                Hsvc Hne) as (w' & _ & Hrun').
    rewrite Hrun' in Hrun. simpl in Hrun. simplify_eq. simpl.
    destruct (narrowToProviders_chosen ids profile (placeholderAt localize w)
                (filter (λ conn, id conn ≠ "-1") conns))
      as [[_ ->]|Hmem]; [by left|right].
    apply list_elem_of_filter in Hmem as [Hallowed Hmem].
    by apply list_elem_of_filter in Hmem as [Hid Hmem].
Qed.

(** X8.  A fetched connection whose id is "-1" is never listed in the
    [otherConnections] of a fulfilled [getActiveContexts]; when only such
    entries were fetched, the list is the one-element list of the default,
    which is a placeholder (provider "MSSQL", id "-1") built during the call:
    an object that did not exist before the call and is none of the fetched
    ones. *)
Theorem fetched_placeholders_not_listed svc ids profile w conns r :
  activeConnections svc = Fulfilled (Some conns) →
  (getActiveContexts localize svc ids profile w).1 = Fulfilled r →
  (∀ c, c ∈ conns → id c = "-1" → c ∉ otherConnections r)
  ∧ ((∀ c, c ∈ conns → id c = "-1") →
     otherConnections r = [defaultConnection r]
     ∧ providerName (defaultConnection r) = "MSSQL"
     ∧ id (defaultConnection r) = "-1"
     ∧ (self (defaultConnection r) ∉ heap w)
     ∧ ∀ c, c ∈ conns → self c ≠ self (defaultConnection r)).
Proof.
  intros Hsvc Hrun.
  set (H := list_to_set (self <$> conns) ∪ ({[fresh (heap w)]} ∪ heap w)).
  assert (∀ c, c ∈ conns → self c ∈ H) as Hin.
  { intros c Hc. subst H. apply elem_of_union_l, elem_of_list_to_set.
    apply list_elem_of_fmap. eauto. }
  assert (filter (λ conn, id conn ≠ "-1") conns = [] →
          otherConnections r = [defaultConnection r]
          ∧ providerName (defaultConnection r) = "MSSQL"
          ∧ id (defaultConnection r) = "-1"
          ∧ self (defaultConnection r) = fresh H) as Hnone.
  { intros He.
    rewrite (getActiveContexts_none_active localize svc ids _ w conns Hsvc He)
      in Hrun.
    destruct (bool_decide (length ids = 0)); simpl in Hrun; by simplify_eq. }
  split.
  - intros c Hc Hid Hlisted.
    destruct (decide (filter (λ conn, id conn ≠ "-1") conns = [])) as [He|Hne].
    + destruct (Hnone He) as (Hother & _ & _ & Hself).
      rewrite Hother in Hlisted. apply list_elem_of_singleton in Hlisted.
      apply (is_fresh H). rewrite <- Hself, <- Hlisted. by apply Hin.
    + destruct (getActiveContexts_ranked localize svc ids profile w conns
                  Hsvc Hne) as (w' & _ & Hrun').
      rewrite Hrun' in Hrun. simpl in Hrun. simplify_eq. simpl in Hlisted.
      apply list_elem_of_filter in Hlisted as [_ Hlisted].
      by apply list_elem_of_filter in Hlisted as [Hne' _].
  - intros Honly.
    assert (filter (λ conn, id conn ≠ "-1") conns = []) as He.
    { destruct (filter _ conns) as [|c rest] eqn:Hf; [done|].
      assert (c ∈ filter (λ conn, id conn ≠ "-1") conns) as Hc
        by (rewrite Hf; apply list_elem_of_here).
      apply list_elem_of_filter in Hc as [Hid Hc]. by destruct (Hid (Honly c Hc)). }
    destruct (Hnone He) as (Hother & Hprov & Hid & Hself).
    repeat split; [done..| |].
    + rewrite Hself. intros Hold. apply (is_fresh H).
      by apply elem_of_union_r, elem_of_union_r.
    + intros c Hc Heq. apply (is_fresh H). rewrite <- Hself, <- Heq.
      by apply Hin.
Qed.

(** X9.  Two accesses to [DefaultContext], the second in any world that
    still holds the objects of the first, give placeholders with the same
    provider, id and server name that are two different objects under
    [===]; each is the only entry of its own [otherConnections]. *)
Theorem DefaultContext_new_object_each_access w w' a w1 b w2 :
  DefaultContext localize w = (Fulfilled a, w1) →
  heap w1 ⊆ heap w' →
  DefaultContext localize w' = (Fulfilled b, w2) →
  same_object (defaultConnection a) (defaultConnection b) = false
  ∧ providerName (defaultConnection a) = providerName (defaultConnection b)
  ∧ id (defaultConnection a) = id (defaultConnection b)
  ∧ serverName (defaultConnection a) = serverName (defaultConnection b)
  ∧ otherConnections a = [defaultConnection a]
  ∧ otherConnections b = [defaultConnection b].
Proof.
  rewrite !DefaultContext_run. intros Ha Hsub Hb. simplify_eq. simpl in *.
  split; [|done]. unfold same_object. simpl.
  apply bool_decide_eq_false_2. intros Heq.
  apply (is_fresh (heap w')). rewrite <- Heq. apply Hsub. set_solver.
Qed.

(** X10.  The default of a fulfilled [getActiveContexts] is a real
    connection (its id is not "-1") exactly when some fetched connection has
    an id other than "-1" and an allowed provider. *)
Theorem default_is_real_iff_allowed_exists svc ids profile w conns r :
  activeConnections svc = Fulfilled (Some conns) →
  (getActiveContexts localize svc ids profile w).1 = Fulfilled r →
  id (defaultConnection r) ≠ "-1"
  ↔ ∃ c, c ∈ conns ∧ id c ≠ "-1" ∧ providerName c ∈ ids.
Proof.
  intros Hsvc Hrun.
  destruct (decide (filter (λ conn, id conn ≠ "-1") conns = [])) as [He|Hne].
  - rewrite (getActiveContexts_none_active localize svc ids _ w conns Hsvc He)
      in Hrun.
    split.
    + intros Hid. destruct (bool_decide (length ids = 0)); simpl in Hrun;
        by simplify_eq.
    + intros (c & Hc & Hid & _).
      assert (c ∈ filter (λ conn, id conn ≠ "-1") conns) as Hin
        by by apply list_elem_of_filter.
      rewrite He in Hin. by apply not_elem_of_nil in Hin.
  - destruct (getActiveContexts_ranked localize svc ids profile w conns
                Hsvc Hne) as (w' & _ & Hrun').
    rewrite Hrun' in Hrun. simpl in Hrun. simplify_eq. simpl.
    destruct (narrowToProviders_chosen ids profile (placeholderAt localize w)
                (filter (λ conn, id conn ≠ "-1") conns))
      as [[Hnil ->]|Hmem].
    + split; [done|]. intros (c & Hc & Hid & Hallowed).
      assert (c ∈ filter (λ connection, providerName connection ∈ ids)
                    (filter (λ conn, id conn ≠ "-1") conns)) as Hin
        by (apply list_elem_of_filter; split; [done|];
            by apply list_elem_of_filter).
      rewrite Hnil in Hin. by apply not_elem_of_nil in Hin.
    + apply list_elem_of_filter in Hmem as [Hallowed Hmem].
      apply list_elem_of_filter in Hmem as [Hid Hmem].
      split; [|done]. intros _. eauto.
Qed.

(** X11.  When some fetched connection has an id other than "-1", the
    [otherConnections] of [getActiveContexts] keep the order of the fetched
    list and hold exactly its entries with an id other than "-1" and an
    allowed provider, whatever the profile. *)
Theorem otherConnections_keep_fetched_order svc ids profile w conns r c0 :
  activeConnections svc = Fulfilled (Some conns) →
  c0 ∈ conns → id c0 ≠ "-1" →
  (getActiveContexts localize svc ids profile w).1 = Fulfilled r →
  otherConnections r `sublist_of` conns
  ∧ (∀ c, c ∈ otherConnections r
          ↔ c ∈ conns ∧ id c ≠ "-1" ∧ providerName c ∈ ids).
Proof.
  intros Hsvc Hc0 Hid0 Hrun.
  assert (filter (λ conn, id conn ≠ "-1") conns ≠ []) as Hne.
  { intros He.
    assert (c0 ∈ filter (λ conn, id conn ≠ "-1") conns) as Hin
      by by apply list_elem_of_filter.
    rewrite He in Hin. by apply not_elem_of_nil in Hin. }
  destruct (getActiveContexts_ranked localize svc ids profile w conns
              Hsvc Hne) as (w' & _ & Hrun').
  rewrite Hrun' in Hrun. simpl in Hrun. simplify_eq. simpl. split.
  - etrans; apply sublist_filter; apply _.
  - intros c. rewrite !list_elem_of_filter. tauto.
Qed.

(** X12.  When a profile is supplied and a provider is allowed, the
    kernel-change event plays no part: [getContextsForKernel] gives the same
    outcome and the same final world for any two events. *)
Theorem kernel_event_ignored_with_profile svc ids args1 args2 p w :
  ids ≠ [] →
  getContextsForKernel localize svc ids args1 (Some p) w
  = getContextsForKernel localize svc ids args2 (Some p) w.
Proof.
  intros Hids.
  assert (∀ args, namedKernelWithoutProviders args ids = false) as Hno.
  { intros args. unfold namedKernelWithoutProviders.
    destruct args as [a|]; [|done]. destruct (nb.newValue a); [|done].
    apply andb_false_intro2, bool_decide_eq_false_2.
    destruct ids; [done|simpl; lia]. }
  by rewrite !getContextsForKernel_cases, !Hno.
Qed.

End FurtherContextProperties.

Section FurtherKernelProperties.

Context {INotificationService : Type}.

Lemma findKernel_Some wanted kernels k :
  findKernel wanted kernels = Some k → k ∈ kernels ∧ nb.name k = wanted.
Proof.
  intros H. apply List.find_some in H as [Hin Hname].
  split; [by apply list_elem_of_In|]. by apply bool_decide_eq_true_1 in Hname.
Qed.

(** X13.  The kernel [getDefaultKernel] returns is the "SQL" fallback or a
    kernel of [specs.kernels] whose name is [specs.defaultKernel] or, only
    when a connection is supplied, the saved name: no other kernel of the
    list is ever returned. *)
Theorem getDefaultKernel_returns_requested_name specs connectionInfo
    savedKernelInfo (notificationService : INotificationService) :
  getDefaultKernel specs connectionInfo savedKernelInfo notificationService
  = sqlFallback
  ∨ ∃ s, specs = Some s
         ∧ getDefaultKernel specs connectionInfo savedKernelInfo
                            notificationService ∈ nb.kernels s
         ∧ (nb.name (getDefaultKernel specs connectionInfo savedKernelInfo
                                      notificationService)
            = nb.defaultKernel s
            ∨ (is_Some connectionInfo
               ∧ ∃ saved, savedKernelInfo = Some saved
                          ∧ nb.name (getDefaultKernel specs connectionInfo
                                       savedKernelInfo notificationService)
                            = nb.saved_name saved)).
Proof.
  destruct specs as [s|]; [|by left].
  unfold getDefaultKernel.
  destruct (findKernel (nb.defaultKernel s) (nb.kernels s)) as [d|] eqn:Hd;
    destruct savedKernelInfo as [saved|];
    try destruct (findKernel (nb.saved_name saved) (nb.kernels s))
      as [k|] eqn:Hk;
    destruct connectionInfo as [c|];
    try (by left);
    right; exists s; (split; [done|]);
    try (apply findKernel_Some in Hd as [Hdin Hdname]);
    try (apply findKernel_Some in Hk as [Hkin Hkname]);
    first [ by (split; [exact Hdin | left; exact Hdname])
          | split; [exact Hkin|]; right; split; [by eexists|];
            exists saved; by split ].
Qed.

End FurtherKernelProperties.

(** ** The further properties at concrete inputs *)

(** X1 for a restarted kernel named "SQL", a supplied profile and no
    provider. *)
Lemma getContextsForKernel_no_providers_witness :
  getContextsForKernel localizeEnglish (serviceWith [mssqlA]) []
    (Some restartedSql) (Some mssqlA) emptyWorld
  = DefaultContext localizeEnglish emptyWorld
  ∧ fetch_calls (getContextsForKernel localizeEnglish (serviceWith [mssqlA]) []
                   (Some restartedSql) (Some mssqlA) emptyWorld).2
    = fetch_calls emptyWorld.
Proof.
  apply (getContextsForKernel_no_providers localizeEnglish (serviceWith [mssqlA])
           restartedSql (Some mssqlA) emptyWorld
           {| nb.kernel_id := "k2"; nb.kernel_name := "SQL" |}).
  - reflexivity.
  - discriminate.
Defined.

(** X2 for a restarted kernel, no profile and the provider "MSSQL". *)
Lemma getContextsForKernel_delegates_witness :
  getContextsForKernel localizeEnglish (serviceWith [mssqlA]) ["MSSQL"]
    (Some restartedSql) None emptyWorld
  = getActiveContexts localizeEnglish (serviceWith [mssqlA]) ["MSSQL"] None
      (DefaultContext localizeEnglish emptyWorld).2.
Proof.
  apply (getContextsForKernel_delegates localizeEnglish).
  - right. exists restartedSql, {| nb.kernel_id := "k2"; nb.kernel_name := "SQL" |}.
    split; [reflexivity|]. split; [reflexivity|].
    intros o Ho. injection Ho as <-. discriminate.
  - left. discriminate.
Defined.

(** X4 for a service that rejects with "offline". *)
Lemma service_rejection_propagates_witness :
  (getActiveContexts localizeEnglish
     {| activeConnections := Rejected (ServiceError "offline") |}
     ["MSSQL"] None emptyWorld).1
  = Rejected (ServiceError "offline")
  ∧ (∀ args p, ["MSSQL"] ≠ [] →
       (getContextsForKernel localizeEnglish
          {| activeConnections := Rejected (ServiceError "offline") |}
          ["MSSQL"] args (Some p) emptyWorld).1
       = Rejected (ServiceError "offline")).
Proof.
  apply (service_rejection_propagates localizeEnglish
           {| activeConnections := Rejected (ServiceError "offline") |}).
  reflexivity.
Defined.

(** X5 for a service fulfilled with [undefined]. *)
Lemma undefined_connections_rejected_witness :
  ∃ message,
    (getActiveContexts localizeEnglish {| activeConnections := Fulfilled None |}
       ["MSSQL"] None emptyWorld).1
    = Rejected (TypeError message).
Proof.
  apply (undefined_connections_rejected localizeEnglish
           {| activeConnections := Fulfilled None |}).
  reflexivity.
Defined.

(** X6 on MSSQL/A, MSSQL/B: with and without the profile for "B" the
    defaults differ and the lists agree. *)
Lemma profile_never_changes_otherConnections_witness :
  otherConnections {| defaultConnection := mssqlA;
                      otherConnections := [mssqlA; mssqlB] |}
  = otherConnections {| defaultConnection := mssqlB;
                        otherConnections := [mssqlA; mssqlB] |}.
Proof.
  apply (profile_never_changes_otherConnections localizeEnglish
           (serviceWith [mssqlA; mssqlB]) ["MSSQL"]
           None (Some profileB_emptyOptions) emptyWorld).
  - vm_compute. reflexivity.
  - vm_compute. reflexivity.
Defined.

(** X7 on MSSQL/A, PGSQL/B with the profile for "B". *)
Lemma default_is_placeholder_or_allowed_witness :
  (providerName mssqlA = "MSSQL" ∧ id mssqlA = "-1" ∧ options mssqlA = None)
  ∨ (mssqlA ∈ [mssqlA; pgsqlB] ∧ providerName mssqlA ∈ ["MSSQL"]
     ∧ id mssqlA ≠ "-1").
Proof.
  apply (default_is_placeholder_or_allowed localizeEnglish
           (serviceWith [mssqlA; pgsqlB]) ["MSSQL"]
           (Some profileB_emptyOptions) emptyWorld [mssqlA; pgsqlB]
           {| defaultConnection := mssqlA; otherConnections := [mssqlA] |}).
  - reflexivity.
  - vm_compute. reflexivity.
Defined.

(** X8 when the service hands back nothing but a "Select connection"
    placeholder of an earlier call. *)
Lemma fetched_placeholders_not_listed_witness :
  ∃ r,
    (getActiveContexts localizeEnglish
       (serviceWith [ {| self := 30; providerName := "MSSQL"; id := "-1";
                         serverName := "Select connection"; options := None |} ])
       ["MSSQL"] None emptyWorld).1 = Fulfilled r
    ∧ ({| self := 30; providerName := "MSSQL"; id := "-1";
          serverName := "Select connection"; options := None |}
       ∉ otherConnections r)
    ∧ otherConnections r = [defaultConnection r]
    ∧ self (defaultConnection r) ≠ 30.
Proof.
  eexists. split; [vm_compute; reflexivity|].
  destruct (fetched_placeholders_not_listed localizeEnglish
              (serviceWith [ {| self := 30; providerName := "MSSQL"; id := "-1";
                                serverName := "Select connection";
                                options := None |} ])
              ["MSSQL"] None emptyWorld
              [ {| self := 30; providerName := "MSSQL"; id := "-1";
                   serverName := "Select connection"; options := None |} ]
              _ eq_refl
              ltac:(vm_compute; reflexivity))
    as [Hnot Honly].
  split.
  - apply Hnot; [apply list_elem_of_here|reflexivity].
  - destruct Honly as (Hother & _ & _ & _ & Hdistinct).
    + intros c Hc. apply list_elem_of_singleton in Hc. by subst c.
    + split; [exact Hother|].
      intros Heq. apply (Hdistinct _ (list_elem_of_here _ _)). by rewrite Heq.
Defined.

(** X9 for two accesses in a row from the empty world. *)
Lemma DefaultContext_new_object_each_access_witness :
  ∃ a b,
    (DefaultContext localizeEnglish emptyWorld).1 = Fulfilled a
    ∧ (DefaultContext localizeEnglish
         (DefaultContext localizeEnglish emptyWorld).2).1 = Fulfilled b
    ∧ same_object (defaultConnection a) (defaultConnection b) = false
    ∧ serverName (defaultConnection a) = serverName (defaultConnection b).
Proof.
  eexists _, _. split; [reflexivity|]. split; [reflexivity|].
  destruct (DefaultContext_new_object_each_access localizeEnglish emptyWorld
              (DefaultContext localizeEnglish emptyWorld).2 _ _ _ _
              eq_refl (reflexivity _) eq_refl)
    as (Hdistinct & _ & _ & Hname & _).
  split; [exact Hdistinct|exact Hname].
Defined.

(** X10 on MSSQL/A, PGSQL/B with the provider "MSSQL". *)
Lemma default_is_real_iff_allowed_exists_witness :
  id mssqlA ≠ "-1"
  ↔ ∃ c, c ∈ [mssqlA; pgsqlB] ∧ id c ≠ "-1" ∧ providerName c ∈ ["MSSQL"].
Proof.
  apply (default_is_real_iff_allowed_exists localizeEnglish
           (serviceWith [mssqlA; pgsqlB]) ["MSSQL"] None emptyWorld
           [mssqlA; pgsqlB]
           {| defaultConnection := mssqlA; otherConnections := [mssqlA] |}).
  - reflexivity.
  - vm_compute. reflexivity.
Defined.

(** X11 on PGSQL/B, MSSQL/B, MSSQL/A with the provider "MSSQL". *)
Lemma otherConnections_keep_fetched_order_witness :
  [mssqlB; mssqlA] `sublist_of` [pgsqlB; mssqlB; mssqlA]
  ∧ (∀ c, c ∈ [mssqlB; mssqlA]
          ↔ c ∈ [pgsqlB; mssqlB; mssqlA] ∧ id c ≠ "-1"
            ∧ providerName c ∈ ["MSSQL"]).
Proof.
  apply (otherConnections_keep_fetched_order localizeEnglish
           (serviceWith [pgsqlB; mssqlB; mssqlA]) ["MSSQL"] None emptyWorld
           [pgsqlB; mssqlB; mssqlA]
           {| defaultConnection := mssqlB; otherConnections := [mssqlB; mssqlA] |}
           pgsqlB).
  - reflexivity.
  - apply list_elem_of_here.
  - discriminate.
  - vm_compute. reflexivity.
Defined.

(** X12 with the profile MSSQL/A and the provider "MSSQL": a restarted kernel
    and no event at all give the same result. *)
Lemma kernel_event_ignored_with_profile_witness :
  getContextsForKernel localizeEnglish (serviceWith [mssqlA]) ["MSSQL"]
    (Some restartedSql) (Some mssqlA) emptyWorld
  = getContextsForKernel localizeEnglish (serviceWith [mssqlA]) ["MSSQL"]
      None (Some mssqlA) emptyWorld.
Proof.
  apply (kernel_event_ignored_with_profile localizeEnglish).
  discriminate.
Defined.
